(** * The virtualised combobox and the equipment-preset selector

    A shallow embedding of [Combobox] (the generic, filterable, virtualised
    combobox built on downshift's [useCombobox] and react-window's
    [VariableSizeList]) and of [EquipmentPresets.onSelect].

    What the component itself computes is embedded as functions: the filter,
    the row-height cache, the viewport height and the handlers it hands to
    the two libraries.  Calls the component makes into the libraries or into
    its caller are recorded as commands.  Of the libraries themselves only
    one thing is modelled: when downshift reports a selected item during a
    commit, and after the [reset()] the handler may answer with
    ([commitOn]). *)

From Stdlib Require Import ZArith String Ascii List Bool Lia.
From stdpp Require Import base option list gmap strings.
Import ListNotations.

Open Scope string_scope.
Open Scope list_scope.
Open Scope Z_scope.

(** ** JavaScript values the component relies on *)

Module Js.

(** [String.prototype.includes]: does [sub] occur in [s] as a contiguous
    run of code units, at some position? *)
Fixpoint includes (s sub : string) : bool :=
  String.prefix sub s ||
  match s with
  | EmptyString => false
  | String _ rest => includes rest sub
  end.

(** The property [includes] decides. *)
Definition contains (s sub : string) : Prop :=
  exists before after, s = (before ++ sub ++ after)%string.

(** A string is truthy when it is not empty. *)
Definition truthyString (s : string) : bool :=
  match s with
  | EmptyString => false
  | String _ _ => true
  end.

(** [v || ''] for a string that may be undefined. *)
Definition orEmpty (v : option string) : string :=
  match v with
  | Some s => s
  | None => ""
  end.

(** Numbers, as far as [getRowHeight] needs them: an integer or NaN. *)
Inductive number : Type :=
| NaN
| Num (z : Z).

(** Reading a key of an object: the stored number, or undefined, which
    arithmetic turns into NaN. *)
Definition toNumber (v : option Z) : number :=
  match v with
  | Some z => Num z
  | None => NaN
  end.

Definition plus (a b : number) : number :=
  match a, b with
  | Num x, Num y => Num (x + y)
  | _, _ => NaN
  end.

(** NaN and 0 are the falsy numbers. *)
Definition truthy (a : number) : bool :=
  match a with
  | NaN => false
  | Num z => negb (z =? 0)
  end.

(** [a || b]. *)
Definition or (a b : number) : number :=
  if truthy a then a else b.

(** ASCII lower-casing, the restriction of [toLowerCase] to ASCII text. *)
Definition asciiLower (c : ascii) : ascii :=
  let n := nat_of_ascii c in
  if ((65 <=? n) && (n <=? 90))%nat then ascii_of_nat (n + 32) else c.

Fixpoint asciiToLowerCase (s : string) : string :=
  match s with
  | EmptyString => EmptyString
  | String c rest => String (asciiLower c) (asciiToLowerCase rest)
  end.

End Js.

(** ** The combobox *)

Module Combobox.

Section WithItems.

(** The type of [value] in [ComboboxItem] ([any] in the source). *)
Context {V : Type}.

(** [String.prototype.toLowerCase], a built-in of the language. *)
Variable toLowerCase : string -> string.

(** [ComboboxItem].  The source calls the second field [value]; the
    component never reads it, and the props have a [value] of their own. *)
Record ComboboxItem : Type := mkItem { label : string; itemValue : V }.

(** [IComboboxProps], without the render-only [CustomItemComponent].
    [onSelectedItemChange] tells whether the caller supplied the callback;
    every call of it is recorded as a command.  An absent flag is
    [undefined], which the component's [if] treats like [false]. *)
Record IComboboxProps : Type := mkProps {
  id : string;
  value : option string;
  items : list ComboboxItem;
  placeholder : option string;
  onSelectedItemChange : bool;
  resetAfterSelect : bool;
  blurAfterSelect : bool;
  keepOpenAfterSelect : bool;
  className : option string
}.

(** What the component keeps between renders: its two [useState] cells,
    the [rowHeights] ref, and [isOpen] as [useCombobox] returned it at the
    last render. *)
Record State : Type := mkState {
  props : IComboboxProps;
  inputValue : string;
  filteredItems : list ComboboxItem;
  rowHeights : gmap nat Z;
  isOpen : bool
}.

(** Calls that leave the component: into the caller, into downshift and
    into the react-window list. *)
Inductive Command : Type :=
| CallOnSelectedItemChange (selectedItem : option ComboboxItem)
| Reset
| Blur
| ScrollToItem (index : nat)
| SetHighlightedIndex (index : nat)
| ResetAfterIndex (index : nat).

Definition setInputValue (v : string) (s : State) : State :=
  mkState (props s) v (filteredItems s) (rowHeights s) (isOpen s).

Definition setFilteredItems (l : list ComboboxItem) (s : State) : State :=
  mkState (props s) (inputValue s) l (rowHeights s) (isOpen s).

Definition withProps (p : IComboboxProps) (s : State) : State :=
  mkState p (inputValue s) (filteredItems s) (rowHeights s) (isOpen s).

Definition withIsOpen (b : bool) (s : State) : State :=
  mkState (props s) (inputValue s) (filteredItems s) (rowHeights s) b.

Definition withValue (v : option string) (p : IComboboxProps) : IComboboxProps :=
  mkProps (id p) v (items p) (placeholder p) (onSelectedItemChange p)
          (resetAfterSelect p) (blurAfterSelect p) (keepOpenAfterSelect p)
          (className p).

Definition withItems (l : list ComboboxItem) (p : IComboboxProps) : IComboboxProps :=
  mkProps (id p) (value p) l (placeholder p) (onSelectedItemChange p)
          (resetAfterSelect p) (blurAfterSelect p) (keepOpenAfterSelect p)
          (className p).

(** The body of the filter effect: the value handed to [setFilteredItems]. *)
Definition newFilteredItems (items : list ComboboxItem) (inputValue : string)
  : list ComboboxItem :=
  if Js.truthyString inputValue then
    let iv := toLowerCase inputValue in
    List.filter (fun v => Js.includes (toLowerCase (label v)) iv) items
  else items.

(** The list is rendered, and [listRef.current] set, only when the menu is
    open and there are matches. *)
Definition listMounted (s : State) : bool :=
  isOpen s && negb (Nat.eqb (length (filteredItems s)) 0).

(** *** Virtualisation *)

Definition getRowHeight (s : State) (ix : nat) : Js.number :=
  Js.or (Js.plus (Js.toNumber (rowHeights s !! ix)) (Js.Num 15)) (Js.Num 30).

Definition setRowHeight (s : State) (ix : nat) (height : Z)
  : State * list Command :=
  (mkState (props s) (inputValue s) (filteredItems s)
           (<[ix := height]> (rowHeights s)) (isOpen s),
   if listMounted s then [ResetAfterIndex 0] else []).

(** The [height] prop of the list. *)
Definition listHeight (s : State) : Z :=
  let n := Z.of_nat (length (filteredItems s)) in
  if n <? 6 then n * 35 else 200.

(** Where row [n] starts: the list stacks the rows, each as tall as
    [itemSize] (here [getRowHeight]) says.  [rowOffset s n] is also the
    height all of the first [n] rows take together. *)
Fixpoint rowOffset (s : State) (n : nat) : Js.number :=
  match n with
  | O => Js.Num 0
  | S k => Js.plus (rowOffset s k) (getRowHeight s k)
  end.

(** *** Effects *)

(** [if (value) setInputValue(value)], dependencies [[value]]. *)
Definition valueEffect (rendered : State) (s : State) : State :=
  match value (props rendered) with
  | Some v => if Js.truthyString v then setInputValue v s else s
  | None => s
  end.

(** The filter effect, dependencies [[inputValue, items]]. *)
Definition filterEffect (rendered : State) (s : State) : State :=
  setFilteredItems
    (newFilteredItems (items (props rendered)) (inputValue rendered)) s.

(** One commit: the effects whose dependencies differ from the previous
    render run, in source order.  Each reads the values of the render it
    belongs to ([rendered]) and queues its state update.  [value] and
    [items] are compared by the caller of [commit] (a new array is a new
    reference whatever it holds); [inputValue] is compared here. *)
Definition commit (valueChanged itemsChanged : bool) (prev rendered : State)
  : State :=
  let s1 := if valueChanged then valueEffect rendered rendered else rendered in
  if itemsChanged || negb (String.eqb (inputValue prev) (inputValue rendered))
  then filterEffect rendered s1
  else s1.

(** Rendering until nothing is queued any more: the first commit can
    change [inputValue], which the second commit's filter effect picks up;
    the second commit changes [filteredItems] only, which no effect
    depends on. *)
Definition settle (valueChanged itemsChanged : bool) (prev rendered : State)
  : State :=
  commit false false rendered (commit valueChanged itemsChanged prev rendered).

(** Mounting: [useState(value || '')], [useState([])], [useRef({})], then
    every effect runs once. *)
Definition initialState (p : IComboboxProps) (open : bool) : State :=
  mkState p (Js.orEmpty (value p)) [] ∅ open.

Definition mount (p : IComboboxProps) (open : bool) : State :=
  let s := initialState p open in
  commit false false s (filterEffect s (valueEffect s s)).

(** *** Handlers given to [useCombobox] *)

Definition onInputValueChange (s : State) (newValue : option string)
  : State * list Command :=
  (setInputValue (Js.orEmpty newValue) s,
   (if listMounted s then [ScrollToItem 0] else []) ++ [SetHighlightedIndex 0]).

Definition onSelectedItemChangeHandler (s : State)
           (selectedItem : option ComboboxItem) : list Command :=
  (if onSelectedItemChange (props s)
   then [CallOnSelectedItemChange selectedItem] else []) ++
  (if resetAfterSelect (props s) then [Reset] else []) ++
  (if blurAfterSelect (props s) then [Blur] else []).


(** *** The component as a reactive system *)

(** What can happen to a mounted component: the parent re-renders it with
    another [value] or another [items] array, downshift reports a change
    of the input text or of the selected item or returns another [isOpen],
    or a rendered row reports its [clientHeight]. *)
Inductive Event : Type :=
| ValuePropChange (v : option string)
| ItemsPropChange (l : list ComboboxItem)
| InputValueChange (newValue : option string)
| SelectedItemChange (selectedItem : option ComboboxItem)
| RowMeasured (index : nat) (clientHeight : Z)
| IsOpenChange (open : bool).

Definition step (s : State) (e : Event) : State * list Command :=
  match e with
  | ValuePropChange v =>
      let changed := negb (bool_decide (value (props s) = v)) in
      (settle changed false s (withProps (withValue v (props s)) s), [])
  | ItemsPropChange l =>
      (settle false true s (withProps (withItems l (props s)) s), [])
  | InputValueChange newValue =>
      let '(s', cmds) := onInputValueChange s newValue in
      (settle false false s s', cmds)
  | SelectedItemChange selectedItem =>
      (s, onSelectedItemChangeHandler s selectedItem)
  | RowMeasured index clientHeight => setRowHeight s index clientHeight
  | IsOpenChange open => (withIsOpen open s, [])
  end.

(** Running a sequence of events, collecting the commands. *)
Fixpoint run (s : State) (es : list Event) : State * list Command :=
  match es with
  | [] => (s, [])
  | e :: rest =>
      let '(s1, c1) := step s e in
      let '(s2, c2) := run s1 rest in
      (s2, c1 ++ c2)
  end.

(** *** Vocabulary of the statements *)

(** A label contains the query case-insensitively when the lower-cased
    query occurs in the lower-cased label. *)
Definition containsIgnoringCase (lbl query : string) : Prop :=
  Js.contains (toLowerCase lbl) (toLowerCase query).

(** [filteredItems] is in step with the item list and the query. *)
Definition inSync (s : State) : Prop :=
  filteredItems s = newFilteredItems (items (props s)) (inputValue s).

Definition isCallback (c : Command) : bool :=
  match c with
  | CallOnSelectedItemChange _ => true
  | _ => false
  end.

(** *** What a row shows *)

(** [itemToString]: the label, or the empty string for no item. *)
Definition itemToString (i : option ComboboxItem) : string :=
  match i with
  | Some it => label it
  | None => ""
  end.

(** [ItemRenderer] for row [index]: [item = items[index]] of the filtered
    items, and [itemString = itemToString(item)], the text of the row when
    the caller gave no [CustomItemComponent]. *)
Definition itemString (s : State) (index : nat) : string :=
  itemToString (filteredItems s !! index).

(** The selections downshift reported in a sequence of events, in order. *)
Fixpoint reportedSelections (es : list Event) : list (option ComboboxItem) :=
  match es with
  | [] => []
  | SelectedItemChange selectedItem :: rest =>
      selectedItem :: reportedSelections rest
  | _ :: rest => reportedSelections rest
  end.

(** The heights rows reported in a sequence of events. *)
Fixpoint reportedHeights (es : list Event) : list Z :=
  match es with
  | [] => []
  | RowMeasured _ clientHeight :: rest => clientHeight :: reportedHeights rest
  | _ :: rest => reportedHeights rest
  end.

(** A command that reaches outside the list: the caller's callback,
    downshift's [reset], or the blur of the input. *)
Definition isSelectionCommand (c : Command) : bool :=
  match c with
  | CallOnSelectedItemChange _ | Reset | Blur => true
  | _ => false
  end.

(** A call of a method of the react-window list, through [listRef]. *)
Definition isListCommand (c : Command) : bool :=
  match c with
  | ScrollToItem _ | ResetAfterIndex _ => true
  | _ => false
  end.

(** *** The renders on the way *)

(** The renders React commits while an event is processed.  The handler or
    the parent changes the text, [value] or the item list, and the
    component renders with that and with the filtered items of before,
    since the filter runs in an effect, after the render ([r0]).  Each
    commit of effects queues state, and the component renders again
    ([r1], then [r2]).  The last render is the settled state
    [fst (step s e)].  A selection, a measurement and [isOpen] change no
    state an effect depends on. *)
Definition renders (s : State) (e : Event) : list State :=
  match e with
  | ValuePropChange v =>
      let changed := negb (bool_decide (value (props s) = v)) in
      let r0 := withProps (withValue v (props s)) s in
      let r1 := commit changed false s r0 in
      [r0; r1; commit false false r0 r1]
  | ItemsPropChange l =>
      let r0 := withProps (withItems l (props s)) s in
      let r1 := commit false true s r0 in
      [r0; r1; commit false false r0 r1]
  | InputValueChange newValue =>
      let r0 := fst (onInputValueChange s newValue) in
      let r1 := commit false false s r0 in
      [r0; r1; commit false false r0 r1]
  | SelectedItemChange _ | RowMeasured _ _ | IsOpenChange _ =>
      [fst (step s e)]
  end.


(** *** One commit, as downshift reports it *)

(** [===] on two items: are they the same object? *)
Variable sameItem : ComboboxItem -> ComboboxItem -> bool.



End WithItems.

Arguments ComboboxItem V : clear implicits.
Arguments IComboboxProps V : clear implicits.
Arguments State V : clear implicits.
Arguments Command V : clear implicits.
Arguments Event V : clear implicits.

End Combobox.

(** ** The equipment-preset selector *)

Module EquipmentPresets.

Section WithEnum.

(** The enum [EquipmentPreset] and its six members, declared elsewhere in
    the repository.  Nothing here relies on the members being distinct. *)
Context {EquipmentPreset : Type} `{EqDecision EquipmentPreset}.
Variables DHAROKS MAX_MELEE MAX_RANGED VERACS VOID_MELEE VOID_RANGED
  : EquipmentPreset.

(** An entry of [store.availableEquipment]; [onSelect] reads its [id]. *)
Context {EquipmentPiece : Type}.
Variable pieceId : EquipmentPiece -> Z.

(** The argument of [onSelect]: an item of the select, [null] or
    [undefined]. *)
Inductive Selection : Type :=
| Selected (label : string) (value : EquipmentPreset)
| JsNull
| JsUndefined.

(** [v?.value]: [None] is [undefined]. *)
Definition optionalValue (v : Selection) : option EquipmentPreset :=
  match v with
  | Selected _ x => Some x
  | JsNull | JsUndefined => None
  end.

(** The value of an equipment slot in the update: what [findItemById]
    returned ([None] for [undefined]) or a literal [null]. *)
Inductive SlotValue : Type :=
| Found (piece : option EquipmentPiece)
| Null.

(** Object literals as association lists, keys in source order: the
    [equipment] object, and the [PartialDeep<Player>] that holds it. *)
Definition EquipmentUpdate : Type := list (string * SlotValue).
Definition PartialPlayer : Type := list (string * EquipmentUpdate).

(** [Object.keys]. *)
Definition keys {A : Type} (o : list (string * A)) : list string := map fst o.

Definition presets : list (string * EquipmentPreset) :=
  [ ("Dharok's equipment", DHAROKS);
    ("Max Melee", MAX_MELEE);
    ("Max Ranged", MAX_RANGED);
    ("Verac's equipment", VERACS);
    ("Void (Melee)", VOID_MELEE);
    ("Void (Ranged)", VOID_RANGED) ].

Section WithStore.

Variable availableEquipment : list EquipmentPiece.

Definition findItemById (id : Z) : SlotValue :=
  Found (List.find (fun eq => pieceId eq =? id) availableEquipment).

(** The [switch]: the cases are tried in source order, the first equal
    one is taken; [undefined] and any other value reach [default]. *)
Definition newPlayer (v : Selection) : PartialPlayer :=
  match optionalValue v with
  | None => []
  | Some x =>
      if decide (x = DHAROKS) then
        [ ("equipment",
           [ ("head", findItemById 4880);
             ("cape", findItemById 21295);
             ("neck", findItemById 19553);
             ("ammo", findItemById 22947);
             ("weapon", findItemById 4718);
             ("body", findItemById 4892);
             ("shield", Null);
             ("legs", findItemById 4898);
             ("hands", findItemById 22981);
             ("feet", findItemById 13239);
             ("ring", findItemById 28307) ]) ]
      else if decide (x = MAX_MELEE) then
        [ ("equipment",
           [ ("head", findItemById 26382);
             ("cape", findItemById 21295);
             ("neck", findItemById 19553);
             ("ammo", findItemById 22947);
             ("body", findItemById 26384);
             ("legs", findItemById 26386);
             ("hands", findItemById 22981);
             ("feet", findItemById 13239);
             ("ring", findItemById 28307) ]) ]
      else if decide (x = MAX_RANGED) then
        [ ("equipment",
           [ ("head", findItemById 27235);
             ("cape", findItemById 22109);
             ("neck", findItemById 19547);
             ("ammo", findItemById 11212);
             ("body", findItemById 27238);
             ("legs", findItemById 27241);
             ("hands", findItemById 26235);
             ("feet", findItemById 13237);
             ("ring", findItemById 28310) ]) ]
      else if decide (x = VOID_MELEE) then
        [ ("equipment",
           [ ("head", findItemById 11665);
             ("cape", findItemById 21295);
             ("neck", findItemById 19553);
             ("ammo", findItemById 22947);
             ("body", findItemById 13072);
             ("legs", findItemById 13073);
             ("hands", findItemById 8842);
             ("feet", findItemById 13239);
             ("ring", findItemById 28307) ]) ]
      else if decide (x = VOID_RANGED) then
        [ ("equipment",
           [ ("head", findItemById 11664);
             ("cape", findItemById 22109);
             ("neck", findItemById 19547);
             ("ammo", findItemById 11212);
             ("body", findItemById 13072);
             ("legs", findItemById 13073);
             ("hands", findItemById 8842);
             ("feet", findItemById 13237);
             ("ring", findItemById 28310) ]) ]
      else if decide (x = VERACS) then
        [ ("equipment",
           [ ("head", findItemById 4976);
             ("cape", findItemById 21295);
             ("neck", findItemById 19553);
             ("ammo", findItemById 22947);
             ("weapon", findItemById 4755);
             ("body", findItemById 4988);
             ("shield", Null);
             ("legs", findItemById 4994);
             ("hands", findItemById 22981);
             ("feet", findItemById 13239);
             ("ring", findItemById 28307) ]) ]
      else []
  end.

(** [onSelect], as the list of calls it makes to [store.updatePlayer],
    each with its argument. *)
Definition onSelect (v : Selection) : list PartialPlayer :=
  let p := newPlayer v in
  if (0 <? length (keys p))%nat then [p] else [].

(** The store after [onSelect], for any store and any [updatePlayer]. *)
Definition storeAfter {Store : Type}
           (updatePlayer : PartialPlayer -> Store -> Store)
           (v : Selection) (store : Store) : Store :=
  fold_left (fun st p => updatePlayer p st) (onSelect v) store.

End WithStore.

(** The value is one of the six presets the [switch] names. *)
Definition isDefinedPreset (x : EquipmentPreset) : Prop :=
  x = DHAROKS \/ x = MAX_MELEE \/ x = MAX_RANGED \/
  x = VERACS \/ x = VOID_MELEE \/ x = VOID_RANGED.

End WithEnum.

Arguments Selection EquipmentPreset : clear implicits.
Arguments SlotValue EquipmentPiece : clear implicits.

End EquipmentPresets.

(** ** The build and deploy workflow *)

Module Workflow.

(** Values of the expression language of the workflow, as far as the file
    uses them: booleans and strings. *)
Inductive value : Type :=
| VBool (b : bool)
| VStr (s : string).

(** The empty string and [false] are the falsy values. *)
Definition truthy (v : value) : bool :=
  match v with
  | VBool b => b
  | VStr s => Js.truthyString s
  end.

(** [a && b] and [a || b] return one of their operands. *)
Definition and_ (a b : value) : value := if truthy a then b else a.
Definition or_ (a b : value) : value := if truthy a then a else b.

(** [==] on strings ignores case. *)
Definition eq (a b : string) : bool :=
  String.eqb (Js.asciiToLowerCase a) (Js.asciiToLowerCase b).

(** The part of the [github] context the file reads. *)
Record Github : Type := mkGithub { repository : string; ref : string }.

Definition upstream : string := "weirdgloop/osrs-dps-calc".
Definition main : string := "refs/heads/main".
Definition staging : string := "refs/heads/staging".

(** The [if] of the step "Build project" and of "Build project (staging)". *)
Definition buildsProject (g : Github) : bool := negb (eq (ref g) staging).
Definition buildsStaging (g : Github) : bool := eq (ref g) staging.

(** The [if] of the artifact upload, and the [if] of the [deploy] job. *)
Definition uploadsArtifact (g : Github) : bool :=
  eq (repository g) upstream && (eq (ref g) main || eq (ref g) staging).

Definition deploys (g : Github) : bool :=
  eq (repository g) upstream && (eq (ref g) main || eq (ref g) staging).

(** [DIRECTORY_NAME] of the [deploy] job. *)
Definition DIRECTORY_NAME (g : Github) : value :=
  or_ (and_ (VBool (eq (ref g) main)) (VStr "osrs-dps/"))
      (VStr "osrs-dps-staging/").

End Workflow.

(** ** Concrete data *)

Module Examples.

Import Combobox.

Definition weapons : list (ComboboxItem Z) :=
  [ mkItem "Dragon dagger" 1215; mkItem "Dragon spear" 1249;
    mkItem "Rune sword" 1289 ].

Definition swords : list (ComboboxItem Z) := [ mkItem "Rune sword" 1289 ].

Definition weaponProps : IComboboxProps Z :=
  mkProps "weapon-select" None weapons None true true false false None.

Definition dragonProps : IComboboxProps Z :=
  mkProps "weapon-select" (Some "Dragon") weapons None true false false false None.

(** Mounted with the menu open, on ASCII labels. *)
Definition mounted : State Z := mount Js.asciiToLowerCase weaponProps true.

Definition mountedDragon : State Z := mount Js.asciiToLowerCase dragonProps true.

(** Row 0 has been measured at 40. *)
Definition measured : State Z := fst (setRowHeight mounted 0 40).

(** The user typed "rune", then the only row left was measured at 40. *)
Definition runeMeasured : State Z :=
  fst (run Js.asciiToLowerCase mounted
           [InputValueChange (Some "rune"); RowMeasured 0 40]).

(** The user typed "rune", then the only row left was measured at 20. *)
Definition runeMeasured20 : State Z :=
  fst (run Js.asciiToLowerCase mounted
           [InputValueChange (Some "rune"); RowMeasured 0 20]).

Definition armour : list (ComboboxItem Z) :=
  [ mkItem "Torva full helm" 26382; mkItem "Torva platebody" 26384;
    mkItem "Torva platelegs" 26386; mkItem "Masori mask (f)" 27235;
    mkItem "Masori body (f)" 27238; mkItem "Masori chaps (f)" 27241 ].

Definition mountedArmour : State Z :=
  mount Js.asciiToLowerCase
        (mkProps "armour-select" None armour None false false false false None) true.

(** A numeric enum for the presets, and equipment known by its id alone. *)
Definition onSelectZ : EquipmentPresets.Selection Z -> list EquipmentPresets.PartialPlayer :=
  EquipmentPresets.onSelect 0 1 2 3 4 5 (fun piece : Z => piece) [4880; 21295; 4718].

(** A session: the user types "dragon", two rows are measured, the second
    row is committed, and the caller replaces the item list. *)
Definition session : list (Event Z) :=
  [ InputValueChange (Some "dragon");
    RowMeasured 0 14; RowMeasured 1 14;
    SelectedItemChange (Some (mkItem "Dragon spear" 1249));
    ItemsPropChange swords ].

(** The user types and a row is measured; nothing is selected. *)
Definition browsing : list (Event Z) :=
  [ InputValueChange (Some "dragon"); RowMeasured 0 14;
    InputValueChange (Some "dragon s"); IsOpenChange false ].


(** Mounted with the menu closed. *)
Definition closedMenu : State Z := mount Js.asciiToLowerCase weaponProps false.

Definition pushToStaging : Workflow.Github :=
  Workflow.mkGithub "weirdgloop/osrs-dps-calc" "refs/heads/staging".

End Examples.

(** * Properties *)

(** ** Strings *)

Lemma append_cons (c : ascii) (s t : string) :
  (String c s ++ t)%string = String c (s ++ t)%string.
Proof. reflexivity. Qed.

Lemma prefix_iff_append (sub s : string) :
  String.prefix sub s = true <-> exists after, s = (sub ++ after)%string.
Proof.
  revert s. induction sub as [|a sub IH]; intros s; simpl.
  - split; [intros _; exists s; reflexivity | now destruct s].
  - destruct s as [|b s]; simpl.
    + split; [discriminate | intros [after H]; rewrite append_cons in H; discriminate].
    + destruct (ascii_dec a b) as [->|Hab].
      * rewrite IH. split; intros [after H]; exists after;
          rewrite append_cons in *; congruence.
      * split; [discriminate | intros [after H]; rewrite append_cons in H; congruence].
Qed.

Lemma includes_iff_contains (s sub : string) :
  Js.includes s sub = true <-> Js.contains s sub.
Proof.
  unfold Js.contains. induction s as [|c s IH]; cbn [Js.includes].
  - rewrite orb_false_r, prefix_iff_append. split.
    + intros [after H]. exists EmptyString, after. exact H.
    + intros [[|b before] [after H]]; [exists after; exact H | discriminate].
  - rewrite orb_true_iff, prefix_iff_append, IH. split.
    + intros [[after H] | [before [after H]]].
      * exists EmptyString, after. exact H.
      * exists (String c before), after. rewrite append_cons. now rewrite H.
    + intros [[|b before] [after H]].
      * left. exists after. exact H.
      * right. exists before, after. rewrite append_cons in H. congruence.
Qed.

Lemma contains_empty (s : string) : Js.contains s "".
Proof. exists EmptyString, s. reflexivity. Qed.

Lemma truthyString_false (s : string) : Js.truthyString s = false <-> s = "".
Proof. destruct s; simpl; split; congruence. Qed.

(** ** The filter *)

Section FilterProperties.

Context {V : Type}.
Variable toLowerCase : string -> string.

Abbreviation Item := (Combobox.ComboboxItem V).
Abbreviation newFilteredItems := (Combobox.newFilteredItems toLowerCase).
Abbreviation containsIgnoringCase := (Combobox.containsIgnoringCase toLowerCase).

Lemma newFilteredItems_sublist (items : list Item) (query : string) :
  newFilteredItems items query `sublist_of` items.
Proof.
  unfold Combobox.newFilteredItems.
  destruct (Js.truthyString query); [|reflexivity].
  induction items as [|it items IH]; simpl; [constructor|].
  destruct (Js.includes _ _); now constructor.
Qed.

Lemma newFilteredItems_matches (items : list Item) (query : string) :
  toLowerCase "" = "" ->
  Forall (fun it => containsIgnoringCase (Combobox.label it) query)
         (newFilteredItems items query).
Proof.
  intros Hlow. unfold Combobox.newFilteredItems, Combobox.containsIgnoringCase.
  destruct (Js.truthyString query) eqn:Hq.
  - apply List.Forall_forall. intros it Hin.
    apply List.filter_In in Hin as [_ Hin].
    now apply includes_iff_contains.
  - apply truthyString_false in Hq. subst query. rewrite Hlow.
    apply List.Forall_forall. intros it _. apply contains_empty.
Qed.

(** The filter keeps every match: nothing that contains the query is
    dropped. *)
Lemma newFilteredItems_complete (items : list Item) (query : string) (it : Item) :
  In it items -> containsIgnoringCase (Combobox.label it) query ->
  In it (newFilteredItems items query).
Proof.
  intros Hin Hc. unfold Combobox.newFilteredItems.
  destruct (Js.truthyString query); [|exact Hin].
  apply List.filter_In. split; [exact Hin|].
  now apply includes_iff_contains.
Qed.

(** C1. For every item list and query, every element of the filtered view
    has a label that contains the query case-insensitively, the filtered
    view is a subsequence of the item list in the list's order, and for
    the empty query the filtered view is the item list itself.
    Lower-casing the empty string gives the empty string. *)
Theorem filtered_view_matches_in_order (items : list Item) (query : string) :
  toLowerCase "" = "" ->
  Forall (fun it => containsIgnoringCase (Combobox.label it) query)
         (newFilteredItems items query)
  /\ newFilteredItems items query `sublist_of` items
  /\ newFilteredItems items "" = items.
Proof.
  intros Hlow. split; [|split].
  - now apply newFilteredItems_matches.
  - apply newFilteredItems_sublist.
  - reflexivity.
Qed.

End FilterProperties.

(** ** The component *)

Section ComboboxProperties.

Context {V : Type}.
Variable toLowerCase : string -> string.

Abbreviation State := (Combobox.State V).
Abbreviation Event := (Combobox.Event V).
Abbreviation step := (Combobox.step toLowerCase).
Abbreviation filtered := (Combobox.newFilteredItems toLowerCase).

Lemma commit_quiet (s : State) : Combobox.commit toLowerCase false false s s = s.
Proof.
  unfold Combobox.commit. now rewrite String.eqb_refl.
Qed.

Lemma commit_frame (vc ic : bool) (prev rendered : State) :
  let r := Combobox.commit toLowerCase vc ic prev rendered in
  Combobox.props r = Combobox.props rendered
  /\ Combobox.rowHeights r = Combobox.rowHeights rendered
  /\ Combobox.isOpen r = Combobox.isOpen rendered.
Proof.
  unfold Combobox.commit, Combobox.valueEffect, Combobox.filterEffect.
  destruct vc, (ic || _); cbn;
    destruct (Combobox.value (Combobox.props rendered)) as [v|];
    try destruct (Js.truthyString v); cbn; auto.
Qed.

Lemma commit_filteredItems (vc ic : bool) (prev rendered : State) :
  Combobox.filteredItems (Combobox.commit toLowerCase vc ic prev rendered) =
  if ic || negb (String.eqb (Combobox.inputValue prev) (Combobox.inputValue rendered))
  then filtered (Combobox.items (Combobox.props rendered)) (Combobox.inputValue rendered)
  else Combobox.filteredItems rendered.
Proof.
  unfold Combobox.commit, Combobox.valueEffect, Combobox.filterEffect.
  destruct vc, (ic || _); cbn;
    destruct (Combobox.value (Combobox.props rendered)) as [v|];
    try destruct (Js.truthyString v); cbn; auto.
Qed.

Lemma commit_inputValue (vc ic : bool) (prev rendered : State) :
  Combobox.inputValue (Combobox.commit toLowerCase vc ic prev rendered) =
  if vc then
    match Combobox.value (Combobox.props rendered) with
    | Some v => if Js.truthyString v then v else Combobox.inputValue rendered
    | None => Combobox.inputValue rendered
    end
  else Combobox.inputValue rendered.
Proof.
  unfold Combobox.commit, Combobox.valueEffect, Combobox.filterEffect.
  destruct vc, (ic || _); cbn;
    destruct (Combobox.value (Combobox.props rendered)) as [v|];
    try destruct (Js.truthyString v); cbn; auto.
Qed.

(** After the two commits of [settle] the filtered items match the item
    list and the query, provided the first commit either refilters or
    starts from a render whose filtered items match already. *)
Lemma settle_inSync (vc ic : bool) (prev rendered : State) :
  (ic || negb (String.eqb (Combobox.inputValue prev) (Combobox.inputValue rendered)) = false ->
   Combobox.inSync toLowerCase rendered) ->
  Combobox.inSync toLowerCase (Combobox.settle toLowerCase vc ic prev rendered).
Proof.
  intros Hsync. unfold Combobox.inSync, Combobox.settle in *.
  set (r := Combobox.commit toLowerCase vc ic prev rendered) in *.
  destruct (commit_frame false false rendered r) as (Hp & _ & _). cbn zeta in Hp.
  rewrite Hp, commit_filteredItems, commit_inputValue, orb_false_l.
  destruct (String.eqb (Combobox.inputValue rendered) (Combobox.inputValue r)) eqn:He;
    cbn [negb]; [|reflexivity].
  apply String.eqb_eq in He. rewrite <- He.
  destruct (commit_frame vc ic prev rendered) as (Hp' & _ & _). cbn zeta in Hp'.
  fold r in Hp'. rewrite Hp'. subst r. rewrite commit_filteredItems.
  destruct (ic || _) eqn:Hc; [reflexivity | now apply Hsync].
Qed.

Lemma settle_frame (vc ic : bool) (prev rendered : State) :
  let r := Combobox.settle toLowerCase vc ic prev rendered in
  Combobox.props r = Combobox.props rendered
  /\ Combobox.rowHeights r = Combobox.rowHeights rendered
  /\ Combobox.isOpen r = Combobox.isOpen rendered.
Proof.
  cbn zeta. unfold Combobox.settle.
  destruct (commit_frame false false rendered
              (Combobox.commit toLowerCase vc ic prev rendered)) as (-> & -> & ->).
  apply commit_frame.
Qed.

Lemma settle_inputValue (vc ic : bool) (prev rendered : State) :
  Combobox.inputValue (Combobox.settle toLowerCase vc ic prev rendered) =
  Combobox.inputValue (Combobox.commit toLowerCase vc ic prev rendered).
Proof. unfold Combobox.settle. now rewrite commit_inputValue. Qed.

(** Every event leaves the filtered items in step with the item list and
    the query. *)
Lemma step_inSync (s : State) (e : Event) :
  Combobox.inSync toLowerCase s -> Combobox.inSync toLowerCase (fst (step s e)).
Proof.
  intros Hs. destruct e as [v|l|nv|it|ix h|o]; cbn [Combobox.step fst];
    try exact Hs.
  - apply settle_inSync. intros _. exact Hs.
  - apply settle_inSync. discriminate.
  - cbn. apply settle_inSync. cbn. rewrite negb_false_iff.
    intros He. apply String.eqb_eq in He. unfold Combobox.inSync in *. cbn.
    now rewrite <- He.
Qed.

Lemma mount_inSync (p : Combobox.IComboboxProps V) (o : bool) :
  Combobox.inSync toLowerCase (Combobox.mount toLowerCase p o).
Proof.
  unfold Combobox.mount, Combobox.inSync.
  rewrite commit_filteredItems, commit_inputValue. cbn [orb].
  destruct (commit_frame false false (Combobox.initialState p o)
    (Combobox.filterEffect toLowerCase (Combobox.initialState p o)
       (Combobox.valueEffect (Combobox.initialState p o) (Combobox.initialState p o))))
    as (-> & _ & _).
  unfold Combobox.valueEffect, Combobox.filterEffect, Combobox.initialState. cbn.
  destruct (Combobox.value p) as [v|]; cbn; [|reflexivity].
  destruct (Js.truthyString v); cbn; now rewrite String.eqb_refl.
Qed.


(** C2 (amended). No recomputation of the filtered items touches the
    row-height cache: the recorded measurements are all kept, and the cache
    changes only when a row is measured, which records that row's height at
    its index. *)
Theorem rowHeights_survive_recomputation (s : State) (e : Event) :
  Combobox.rowHeights (fst (step s e)) =
  match e with
  | Combobox.RowMeasured ix h => <[ix := h]> (Combobox.rowHeights s)
  | _ => Combobox.rowHeights s
  end.
Proof.
  destruct e as [v|l|nv|it|ix h|o]; cbn [Combobox.step fst]; try reflexivity.
  - now destruct (settle_frame (negb (bool_decide (Combobox.value (Combobox.props s) = v)))
                    false s (Combobox.withProps (Combobox.withValue v (Combobox.props s)) s))
      as (_ & -> & _).
  - now destruct (settle_frame false true s
                    (Combobox.withProps (Combobox.withItems l (Combobox.props s)) s))
      as (_ & -> & _).
  - cbn. now destruct (settle_frame false false s
                    (Combobox.setInputValue (Js.orEmpty nv) s)) as (_ & -> & _).
Qed.

(** *** Row heights *)

(** The fallback of [||]: a recorded height of -15 would add up to 0, which
    is falsy, and the row would get the default.  A measurement is an
    element's [clientHeight], which is never negative. *)
Lemma getRowHeight_falsy_sum (s : State) (ix : nat) :
  Combobox.rowHeights s !! ix = Some (-15) ->
  Combobox.getRowHeight s ix = Js.Num 30.
Proof. intros H. unfold Combobox.getRowHeight. now rewrite H. Qed.

Lemma getRowHeight_recorded (s : State) (ix : nat) (h : Z) :
  Combobox.rowHeights s !! ix = Some h -> 0 <= h ->
  Combobox.getRowHeight s ix = Js.Num (h + 15).
Proof.
  intros H Hh. unfold Combobox.getRowHeight, Js.or. rewrite H. cbn.
  destruct (h + 15 =? 0) eqn:He; [lia | reflexivity].
Qed.

Lemma getRowHeight_default (s : State) (ix : nat) :
  Combobox.rowHeights s !! ix = None ->
  Combobox.getRowHeight s ix = Js.Num 30.
Proof. intros H. unfold Combobox.getRowHeight. now rewrite H. Qed.

Lemma setRowHeight_lookup (s : State) (ix : nat) (h : Z) :
  Combobox.rowHeights (fst (Combobox.setRowHeight s ix h)) !! ix = Some h.
Proof. cbn. apply lookup_insert_eq. Qed.

Lemma setRowHeight_lookup_other (s : State) (ix jx : nat) (h : Z) :
  ix <> jx ->
  Combobox.rowHeights (fst (Combobox.setRowHeight s ix h)) !! jx =
  Combobox.rowHeights s !! jx.
Proof. intros Hne. cbn. now apply lookup_insert_ne. Qed.

(** C3. The height the layout uses for a row is the row's recorded height
    plus 15 when a measurement (a [clientHeight], so not negative) is
    recorded, and 30 when none is; once 40 is recorded for a row, the
    layout uses 55 for it. *)
Theorem row_height_is_measurement_plus_padding (s : State) (ix : nat) :
  (forall h, Combobox.rowHeights s !! ix = Some h -> 0 <= h ->
             Combobox.getRowHeight s ix = Js.Num (h + 15))
  /\ (Combobox.rowHeights s !! ix = None ->
      Combobox.getRowHeight s ix = Js.Num 30)
  /\ Combobox.getRowHeight (fst (Combobox.setRowHeight s ix 40)) ix = Js.Num 55.
Proof.
  split; [|split].
  - intros h H Hh. now apply getRowHeight_recorded.
  - apply getRowHeight_default.
  - apply (getRowHeight_recorded _ ix 40); [apply setRowHeight_lookup | lia].
Qed.

(** Rows that all take 35 units stack to 35 units each. *)
Lemma rowOffset_uniform (s : State) (n : nat) :
  (forall i, (i < n)%nat -> Combobox.getRowHeight s i = Js.Num 35) ->
  Combobox.rowOffset s n = Js.Num (35 * Z.of_nat n).
Proof.
  induction n as [|n IH]; intros H; [reflexivity|].
  cbn [Combobox.rowOffset].
  rewrite IH by (intros i Hi; apply H; lia). rewrite H by lia.
  cbn [Js.plus]. f_equal. lia.
Qed.

(** C6 (amended). With fewer than 6 matches the viewport is 35 units per
    match, whatever the rows measure, which is the height of the rows
    whenever the rows take 35 units each (a measured height of 20); with 6
    matches or more the viewport is 200 units. *)
Theorem listHeight_policy (s : State) :
  let n := length (Combobox.filteredItems s) in
  ((n < 6)%nat -> Combobox.listHeight s = 35 * Z.of_nat n)
  /\ ((6 <= n)%nat -> Combobox.listHeight s = 200)
  /\ ((n < 6)%nat ->
      (forall i, (i < n)%nat -> Combobox.getRowHeight s i = Js.Num 35) ->
      Combobox.rowOffset s n = Js.Num (Combobox.listHeight s)).
Proof.
  cbn zeta. unfold Combobox.listHeight.
  split; [|split].
  - intros Hn. destruct (_ <? 6) eqn:He; lia.
  - intros Hn. destruct (_ <? 6) eqn:He; lia.
  - intros Hn Hrows. rewrite rowOffset_uniform by exact Hrows.
    destruct (_ <? 6) eqn:He; [f_equal; lia | lia].
Qed.

(** *** Handlers *)

(** Everything the handler does with a reported selection: the callback
    first, then downshift's [reset] when [resetAfterSelect] is set, then
    the blur when [blurAfterSelect] is set.  It changes no state of the
    component itself. *)
Lemma onSelectedItemChange_commands (s : State)
      (selectedItem : option (Combobox.ComboboxItem V)) :
  step s (Combobox.SelectedItemChange selectedItem) =
  (s, (if Combobox.onSelectedItemChange (Combobox.props s)
       then [Combobox.CallOnSelectedItemChange selectedItem] else [])
      ++ (if Combobox.resetAfterSelect (Combobox.props s)
          then [Combobox.Reset] else [])
      ++ (if Combobox.blurAfterSelect (Combobox.props s)
          then [Combobox.Blur] else [])).
Proof. reflexivity. Qed.


(** C7 (amended). A change of the input text that downshift reports sets
    the highlighted index to 0, scrolls the mounted list to row 0, and is
    followed by the recomputation of the filtered items for the new text;
    a recomputation started by another item list or another [value] resets
    neither the highlighted index nor the scroll position. *)
Theorem highlight_and_scroll_reset_on_input_change (s : State) :
  (forall nv,
      snd (step s (Combobox.InputValueChange nv)) =
      (if Combobox.listMounted s then [Combobox.ScrollToItem 0] else [])
        ++ [Combobox.SetHighlightedIndex 0])
  /\ (forall nv,
      Combobox.inSync toLowerCase s ->
      Combobox.filteredItems (fst (step s (Combobox.InputValueChange nv))) =
      filtered (Combobox.items (Combobox.props s)) (Js.orEmpty nv))
  /\ (forall l, snd (step s (Combobox.ItemsPropChange l)) = [])
  /\ (forall v, snd (step s (Combobox.ValuePropChange v)) = []).
Proof.
  split; [|split; [|split]]; try reflexivity.
  intros nv Hs.
  pose proof (step_inSync s (Combobox.InputValueChange nv) Hs) as H.
  unfold Combobox.inSync in H. rewrite H. cbn.
  destruct (settle_frame false false s (Combobox.setInputValue (Js.orEmpty nv) s))
    as (-> & _ & _).
  now rewrite settle_inputValue, commit_inputValue.
Qed.

(** C9 (amended). When the caller changes [value] to a non-empty string,
    the input text becomes that string; when it changes [value] to the
    empty string or to nothing, the input text stays as it is.  The text
    the user types never changes [value]. *)
Theorem value_prop_sync (s : State) (v : option string) :
  Combobox.value (Combobox.props s) <> v ->
  Combobox.inputValue (fst (step s (Combobox.ValuePropChange v))) =
    match v with
    | Some x => if Js.truthyString x then x else Combobox.inputValue s
    | None => Combobox.inputValue s
    end
  /\ forall nv,
      Combobox.value (Combobox.props (fst (step s (Combobox.InputValueChange nv)))) =
      Combobox.value (Combobox.props s).
Proof.
  intros Hne. split.
  - cbn [Combobox.step fst]. rewrite settle_inputValue, commit_inputValue.
    rewrite bool_decide_eq_false_2 by exact Hne. reflexivity.
  - intros nv. cbn.
    now destruct (settle_frame false false s (Combobox.setInputValue (Js.orEmpty nv) s))
      as (-> & _ & _).
Qed.

End ComboboxProperties.

(** *** On concrete data *)

(** The filter on the three weapons: "dragon" keeps the two dragon weapons,
    in their order. *)
Lemma filter_dragon :
  Combobox.newFilteredItems Js.asciiToLowerCase Examples.weapons "dragon" =
  [ Combobox.mkItem "Dragon dagger" 1215; Combobox.mkItem "Dragon spear" 1249 ].
Proof. reflexivity. Qed.

Lemma filtered_view_matches_in_order_witness :
  Forall (fun it => Combobox.containsIgnoringCase Js.asciiToLowerCase
                      (Combobox.label it) "dragon")
         (Combobox.newFilteredItems Js.asciiToLowerCase Examples.weapons "dragon")
  /\ Combobox.newFilteredItems Js.asciiToLowerCase Examples.weapons "dragon"
       `sublist_of` Examples.weapons
  /\ Combobox.newFilteredItems Js.asciiToLowerCase Examples.weapons "" =
     Examples.weapons.
Proof.
  apply (filtered_view_matches_in_order Js.asciiToLowerCase Examples.weapons "dragon").
  reflexivity.
Defined.

(** Measuring row 2 at 40, the other rows unmeasured: row 3 starts at
    30 + 30 + 55. *)
Lemma rowOffset_after_measuring_row_2 :
  Combobox.rowOffset (fst (Combobox.setRowHeight Examples.mounted 2 40)) 3 =
  Js.Num 115.
Proof. vm_compute. reflexivity. Qed.

Lemma row_height_is_measurement_plus_padding_witness :
  Combobox.getRowHeight Examples.measured 0 = Js.Num (40 + 15)
  /\ Combobox.getRowHeight Examples.measured 1 = Js.Num 30.
Proof.
  split.
  - apply (proj1 (row_height_is_measurement_plus_padding Examples.measured 0) 40);
      [vm_compute; reflexivity | lia].
  - apply (proj1 (proj2 (row_height_is_measurement_plus_padding Examples.measured 1))).
    vm_compute. reflexivity.
Defined.



Lemma listHeight_policy_witness :
  Combobox.listHeight Examples.runeMeasured20 = 35 * 1
  /\ Combobox.listHeight Examples.mountedArmour = 200
  /\ Combobox.rowOffset Examples.runeMeasured20 1 =
     Js.Num (Combobox.listHeight Examples.runeMeasured20).
Proof.
  split; [|split].
  - apply (proj1 (listHeight_policy Examples.runeMeasured20)).
    vm_compute. lia.
  - apply (proj1 (proj2 (listHeight_policy Examples.mountedArmour))).
    vm_compute. lia.
  - apply (proj2 (proj2 (listHeight_policy Examples.runeMeasured20))).
    + vm_compute. lia.
    + intros i Hi. assert (i = 0%nat) as -> by (vm_compute in Hi; lia).
      vm_compute. reflexivity.
Defined.

Lemma highlight_and_scroll_reset_on_input_change_witness :
  Combobox.filteredItems
    (fst (Combobox.step Js.asciiToLowerCase Examples.mounted
            (Combobox.InputValueChange (Some "rune")))) =
  Combobox.newFilteredItems Js.asciiToLowerCase Examples.weapons "rune".
Proof.
  apply (proj1 (proj2 (highlight_and_scroll_reset_on_input_change
                         Js.asciiToLowerCase Examples.mounted)) (Some "rune")).
  vm_compute. reflexivity.
Defined.

Lemma value_prop_sync_witness :
  Combobox.inputValue
    (fst (Combobox.step Js.asciiToLowerCase Examples.mountedDragon
            (Combobox.ValuePropChange (Some "Rune")))) = "Rune".
Proof.
  apply (proj1 (value_prop_sync Js.asciiToLowerCase Examples.mountedDragon
                  (Some "Rune") ltac:(vm_compute; discriminate))).
Defined.

(** C2, as stated, fails: row 0 was measured at 40; the user types "rune",
    the filtered items change to the one sword, and index 0 of the new
    filtered items still has the measurement 40 recorded. *)
Lemma stale_measurement_after_filter_change :
  let s' := fst (Combobox.step Js.asciiToLowerCase Examples.measured
                   (Combobox.InputValueChange (Some "rune"))) in
  Combobox.filteredItems s' <> Combobox.filteredItems Examples.measured
  /\ Combobox.filteredItems s' = Examples.swords
  /\ Combobox.rowHeights s' !! 0%nat = Some 40
  /\ Combobox.rowHeights s' <> ∅.
Proof.
  cbn zeta. split; [|split; [|split]].
  - vm_compute. discriminate.
  - vm_compute. reflexivity.
  - vm_compute. reflexivity.
  - intros H. apply (f_equal (fun m => m !! 0%nat)) in H. vm_compute in H.
    discriminate.
Qed.

(** C6, as stated, fails: one match, measured at 40, takes 55 units, and
    the viewport is 35 units. *)
Lemma viewport_smaller_than_its_row :
  length (Combobox.filteredItems Examples.runeMeasured) = 1%nat
  /\ Combobox.listHeight Examples.runeMeasured = 35
  /\ Combobox.rowOffset Examples.runeMeasured 1 = Js.Num 55
  /\ Combobox.rowOffset Examples.runeMeasured 1 <>
     Js.Num (Combobox.listHeight Examples.runeMeasured).
Proof. vm_compute. repeat split. discriminate. Qed.

(** C7, as stated, fails: with the list mounted, another item list
    recomputes the filtered items and the component asks neither for the
    highlighted index nor for the scroll position to be reset. *)
Lemma no_reset_when_items_change :
  let r := Combobox.step Js.asciiToLowerCase Examples.mounted
             (Combobox.ItemsPropChange Examples.swords) in
  Combobox.listMounted Examples.mounted = true
  /\ Combobox.filteredItems (fst r) <> Combobox.filteredItems Examples.mounted
  /\ Combobox.filteredItems (fst r) = Examples.swords
  /\ ~ In (Combobox.SetHighlightedIndex 0) (snd r)
  /\ ~ In (Combobox.ScrollToItem 0) (snd r).
Proof.
  vm_compute. repeat split; try discriminate; intros [].
Qed.

(** C9, as stated, fails: the caller changes [value] from "Dragon" to the
    empty string, and the input text stays "Dragon". *)
Lemma empty_value_is_not_synced :
  Combobox.value (Combobox.props Examples.mountedDragon) = Some "Dragon"
  /\ Combobox.inputValue
       (fst (Combobox.step Js.asciiToLowerCase Examples.mountedDragon
               (Combobox.ValuePropChange (Some "")))) = "Dragon"
  /\ Combobox.inputValue
       (fst (Combobox.step Js.asciiToLowerCase Examples.mountedDragon
               (Combobox.ValuePropChange (Some "")))) <> "".
Proof. vm_compute. repeat split. discriminate. Qed.

(** ** The equipment presets *)

Section PresetProperties.

Context {EquipmentPreset : Type} `{EqDecision EquipmentPreset}.
Variables DHAROKS MAX_MELEE MAX_RANGED VERACS VOID_MELEE VOID_RANGED
  : EquipmentPreset.
Context {EquipmentPiece : Type}.
Variable pieceId : EquipmentPiece -> Z.
Variable availableEquipment : list EquipmentPiece.

Abbreviation Selection := (EquipmentPresets.Selection EquipmentPreset).
Abbreviation newPlayer :=
  (EquipmentPresets.newPlayer DHAROKS MAX_MELEE MAX_RANGED VERACS VOID_MELEE
     VOID_RANGED pieceId availableEquipment).
Abbreviation onSelect :=
  (EquipmentPresets.onSelect DHAROKS MAX_MELEE MAX_RANGED VERACS VOID_MELEE
     VOID_RANGED pieceId availableEquipment).
Abbreviation storeAfter :=
  (EquipmentPresets.storeAfter DHAROKS MAX_MELEE MAX_RANGED VERACS VOID_MELEE
     VOID_RANGED pieceId availableEquipment).
Abbreviation isDefinedPreset :=
  (EquipmentPresets.isDefinedPreset DHAROKS MAX_MELEE MAX_RANGED VERACS
     VOID_MELEE VOID_RANGED).

(** Without a value to switch on, the update stays the empty object. *)
Lemma newPlayer_without_value (v : Selection) :
  EquipmentPresets.optionalValue v = None -> newPlayer v = [].
Proof. intros H. unfold EquipmentPresets.newPlayer. now rewrite H. Qed.

(** A value that is none of the six reaches [default]. *)
Lemma newPlayer_default (v : Selection) (x : EquipmentPreset) :
  EquipmentPresets.optionalValue v = Some x -> ~ isDefinedPreset x ->
  newPlayer v = [].
Proof.
  intros H Hx. unfold EquipmentPresets.newPlayer, EquipmentPresets.isDefinedPreset in *.
  rewrite H. repeat case_decide; tauto.
Qed.

(** Each of the six cases assigns one [equipment] object, with slots. *)
Lemma newPlayer_preset (v : Selection) (x : EquipmentPreset) :
  EquipmentPresets.optionalValue v = Some x -> isDefinedPreset x ->
  exists slots, slots <> [] /\ newPlayer v = [("equipment", slots)].
Proof.
  intros H Hx. unfold EquipmentPresets.newPlayer, EquipmentPresets.isDefinedPreset in *.
  rewrite H. repeat case_decide;
    try (eexists; split; [|reflexivity]; discriminate).
  tauto.
Qed.

(** C10. When the selected item is null or undefined, or its value is none
    of the six presets, [onSelect] does not call [store.updatePlayer], and
    the store stays as it was; when the value is one of the six presets,
    [onSelect] calls [store.updatePlayer] exactly once, with an object
    whose only key is [equipment], holding a non-empty set of slots. *)
Theorem onSelect_updates_store_only_for_presets (v : Selection) :
  ((v = EquipmentPresets.JsNull \/ v = EquipmentPresets.JsUndefined \/
    exists lbl x, v = EquipmentPresets.Selected lbl x /\ ~ isDefinedPreset x) ->
   onSelect v = [] /\
   forall (Store : Type) (updatePlayer : _ -> Store -> Store) (store : Store),
     storeAfter updatePlayer v store = store)
  /\ (forall lbl x,
       v = EquipmentPresets.Selected lbl x -> isDefinedPreset x ->
       exists slots, slots <> [] /\ onSelect v = [[("equipment", slots)]]).
Proof.
  split.
  - intros Hv.
    assert (newPlayer v = []) as Hnew.
    { destruct Hv as [-> | [-> | (lbl & x & -> & Hx)]];
        [now apply newPlayer_without_value ..|].
      now apply (newPlayer_default _ x). }
    assert (onSelect v = []) as Hnone.
    { unfold EquipmentPresets.onSelect. now rewrite Hnew. }
    split; [exact Hnone|]. intros Store updatePlayer store.
    unfold EquipmentPresets.storeAfter. now rewrite Hnone.
  - intros lbl x -> Hx.
    destruct (newPlayer_preset (EquipmentPresets.Selected lbl x) x eq_refl Hx)
      as (slots & Hslots & Hnew).
    exists slots. split; [exact Hslots|].
    unfold EquipmentPresets.onSelect. now rewrite Hnew.
Qed.

End PresetProperties.

(** Numeric presets 0 to 5: the value 9 is none of them and updates
    nothing; Max Melee (1) updates the equipment once. *)
Lemma onSelect_max_melee :
  Examples.onSelectZ (EquipmentPresets.Selected "Max Melee" 1) =
  [[("equipment",
     [ ("head", EquipmentPresets.Found None);
       ("cape", EquipmentPresets.Found (Some 21295));
       ("neck", EquipmentPresets.Found None);
       ("ammo", EquipmentPresets.Found None);
       ("body", EquipmentPresets.Found None);
       ("legs", EquipmentPresets.Found None);
       ("hands", EquipmentPresets.Found None);
       ("feet", EquipmentPresets.Found None);
       ("ring", EquipmentPresets.Found None) ])]].
Proof. reflexivity. Qed.

Lemma onSelect_updates_store_only_for_presets_witness :
  Examples.onSelectZ (EquipmentPresets.Selected "Unknown" 9) = []
  /\ exists slots, slots <> [] /\
       Examples.onSelectZ (EquipmentPresets.Selected "Max Melee" 1) =
       [[("equipment", slots)]].
Proof.
  split.
  - apply (proj1 (onSelect_updates_store_only_for_presets 0 1 2 3 4 5
                    (fun piece : Z => piece) [4880; 21295; 4718]
                    (EquipmentPresets.Selected "Unknown" 9))).
    right. right. exists "Unknown", 9. split; [reflexivity|].
    unfold EquipmentPresets.isDefinedPreset. lia.
  - apply (proj2 (onSelect_updates_store_only_for_presets 0 1 2 3 4 5
                    (fun piece : Z => piece) [4880; 21295; 4718]
                    (EquipmentPresets.Selected "Max Melee" 1))
             "Max Melee" 1 eq_refl).
    unfold EquipmentPresets.isDefinedPreset. lia.
Defined.

(** * Further properties *)

(** ** Substrings *)

Lemma append_assoc (a b c : string) :
  ((a ++ b) ++ c)%string = (a ++ b ++ c)%string.
Proof.
  induction a as [|x a IH]; [reflexivity|].
  rewrite !append_cons. now rewrite IH.
Qed.

Lemma append_empty_inv (a b : string) :
  (a ++ b)%string = "" -> a = "" /\ b = "".
Proof.
  destruct a as [|x a]; [intros H; split; [reflexivity | exact H]|].
  rewrite append_cons. discriminate.
Qed.

Lemma contains_trans (a b c : string) :
  Js.contains a b -> Js.contains b c -> Js.contains a c.
Proof.
  intros (p1 & q1 & ->) (p2 & q2 & ->).
  exists (p1 ++ p2)%string, (q2 ++ q1)%string.
  now rewrite !append_assoc.
Qed.

Lemma contains_in_empty (sub : string) : Js.contains "" sub -> sub = "".
Proof.
  intros (p & q & H). symmetry in H.
  apply append_empty_inv in H as [_ H].
  now apply append_empty_inv in H as [H _].
Qed.

Lemma includes_empty (s : string) : Js.includes s "" = true.
Proof. apply includes_iff_contains, contains_empty. Qed.

(** ** More on the filter *)

Section FilterFurther.

Context {V : Type}.
Variable toLowerCase : string -> string.

Abbreviation Item' := (Combobox.ComboboxItem V).
Abbreviation view := (Combobox.newFilteredItems toLowerCase).

Lemma filter_twice {A : Type} (f : A -> bool) (l : list A) :
  List.filter f (List.filter f l) = List.filter f l.
Proof.
  induction l as [|x l IH]; [reflexivity|]. cbn [List.filter].
  destruct (f x) eqn:Hx; [|exact IH].
  cbn [List.filter]. now rewrite Hx, IH.
Qed.

Lemma filter_narrower {A : Type} (f g : A -> bool) (l : list A) :
  (forall x, f x = true -> g x = true) ->
  List.filter f l `sublist_of` List.filter g l.
Proof.
  intros Hfg. induction l as [|x l IH]; [constructor|]. cbn [List.filter].
  destruct (f x) eqn:Hf.
  - rewrite (Hfg x Hf). now constructor.
  - destruct (g x); [now constructor | exact IH].
Qed.

Lemma filter_all {A : Type} (f : A -> bool) (l : list A) :
  (forall x, f x = true) -> List.filter f l = l.
Proof.
  intros Hf. induction l as [|x l IH]; [reflexivity|].
  cbn [List.filter]. now rewrite Hf, IH.
Qed.

(** X1. Filtering is idempotent: filtering the filtered items again by the
    same query changes nothing. *)
Theorem filter_idempotent (items : list Item') (query : string) :
  Combobox.newFilteredItems toLowerCase
    (Combobox.newFilteredItems toLowerCase items query) query =
  Combobox.newFilteredItems toLowerCase items query.
Proof.
  unfold Combobox.newFilteredItems.
  destruct (Js.truthyString query); [apply filter_twice | reflexivity].
Qed.

(** X2. The filtered items are exactly the items that match: an item is in
    the view if and only if it is in the item list and either the query is
    empty or its lower-cased label contains the lower-cased query.  No
    matching item is dropped and no other item is let in. *)
Theorem filter_membership (items : list Item') (query : string) (it : Item') :
  In it (view items query) <->
  In it items /\
  (query = "" \/ Combobox.containsIgnoringCase toLowerCase (Combobox.label it) query).
Proof.
  unfold Combobox.newFilteredItems, Combobox.containsIgnoringCase.
  destruct (Js.truthyString query) eqn:Hq.
  - rewrite List.filter_In, includes_iff_contains. split.
    + intros [Hin Hc]. split; [exact Hin | right; exact Hc].
    + intros [Hin [-> | Hc]]; [discriminate | split; assumption].
  - apply truthyString_false in Hq. split.
    + intros Hin. split; [exact Hin | left; exact Hq].
    + intros [Hin _]. exact Hin.
Qed.

(** X3. Typing on narrows the view: when the lower-cased old query occurs
    in the lower-cased new query, the view for the new query is a
    subsequence of the view for the old one.  Lower-casing the empty string
    gives the empty string. *)
Theorem filter_narrows (items : list Item') (old new : string) :
  toLowerCase "" = "" ->
  Js.contains (toLowerCase new) (toLowerCase old) ->
  view items new `sublist_of` view items old.
Proof.
  intros Hlow Hc. unfold Combobox.newFilteredItems at 2.
  destruct (Js.truthyString old) eqn:Ho; [|apply newFilteredItems_sublist].
  unfold Combobox.newFilteredItems.
  destruct (Js.truthyString new) eqn:Hn.
  - apply filter_narrower. intros it Hit.
    apply includes_iff_contains. apply includes_iff_contains in Hit.
    now apply (contains_trans _ (toLowerCase new)).
  - apply truthyString_false in Hn. subst new. rewrite Hlow in Hc.
    apply contains_in_empty in Hc. rewrite Hc.
    rewrite filter_all by (intros it; apply includes_empty). reflexivity.
Qed.

End FilterFurther.

Lemma filter_narrows_witness :
  Combobox.newFilteredItems Js.asciiToLowerCase Examples.weapons "Dragon s"
    `sublist_of`
  Combobox.newFilteredItems Js.asciiToLowerCase Examples.weapons "DRAG".
Proof.
  apply (filter_narrows Js.asciiToLowerCase Examples.weapons "DRAG" "Dragon s").
  - reflexivity.
  - exists "", "on s". reflexivity.
Defined.

(** ** More on the component *)

Section ComponentFurther.

Context {V : Type}.
Variable toLowerCase : string -> string.

Abbreviation St := (Combobox.State V).
Abbreviation Ev := (Combobox.Event V).
Abbreviation step' := (Combobox.step toLowerCase).
Abbreviation run' := (Combobox.run toLowerCase).
Abbreviation mount' := (Combobox.mount toLowerCase).
Abbreviation view' := (Combobox.newFilteredItems toLowerCase).

(** What a step does to the props and to the cache. *)
Lemma step_props (s : St) (e : Ev) :
  Combobox.props (fst (step' s e)) =
  match e with
  | Combobox.ValuePropChange v => Combobox.withValue v (Combobox.props s)
  | Combobox.ItemsPropChange l => Combobox.withItems l (Combobox.props s)
  | _ => Combobox.props s
  end.
Proof.
  destruct e as [v|l|nv|it|ix h|o]; cbn [Combobox.step fst]; try reflexivity.
  - now destruct (settle_frame toLowerCase
        (negb (bool_decide (Combobox.value (Combobox.props s) = v))) false s
        (Combobox.withProps (Combobox.withValue v (Combobox.props s)) s))
      as (-> & _ & _).
  - now destruct (settle_frame toLowerCase false true s
        (Combobox.withProps (Combobox.withItems l (Combobox.props s)) s))
      as (-> & _ & _).
  - cbn. now destruct (settle_frame toLowerCase false false s
        (Combobox.setInputValue (Js.orEmpty nv) s)) as (-> & _ & _).
Qed.

Lemma step_rowHeights (s : St) (e : Ev) :
  Combobox.rowHeights (fst (step' s e)) =
  match e with
  | Combobox.RowMeasured ix h => <[ix := h]> (Combobox.rowHeights s)
  | _ => Combobox.rowHeights s
  end.
Proof.
  destruct e as [v|l|nv|it|ix h|o]; cbn [Combobox.step fst]; try reflexivity.
  - now destruct (settle_frame toLowerCase
        (negb (bool_decide (Combobox.value (Combobox.props s) = v))) false s
        (Combobox.withProps (Combobox.withValue v (Combobox.props s)) s))
      as (_ & -> & _).
  - now destruct (settle_frame toLowerCase false true s
        (Combobox.withProps (Combobox.withItems l (Combobox.props s)) s))
      as (_ & -> & _).
  - cbn. now destruct (settle_frame toLowerCase false false s
        (Combobox.setInputValue (Js.orEmpty nv) s)) as (_ & -> & _).
Qed.

Lemma run_cons (s : St) (e : Ev) (es : list Ev) :
  run' s (e :: es) =
  (fst (run' (fst (step' s e)) es),
   snd (step' s e) ++ snd (run' (fst (step' s e)) es)).
Proof.
  cbn [Combobox.run]. destruct (step' s e) as [s1 c1].
  cbn [fst snd]. now destruct (run' s1 es).
Qed.






(** The render between the handler and the filter effect is out of step:
    the user types "rune" and row 0 still shows "Dragon dagger". *)
Lemma stale_render_shows_previous_matches :
  let r0 := fst (Combobox.onInputValueChange Examples.mounted (Some "rune")) in
  In r0 (Combobox.renders Js.asciiToLowerCase Examples.mounted
           (Combobox.InputValueChange (Some "rune")))
  /\ Combobox.inputValue r0 = "rune"
  /\ Combobox.itemString r0 0 = "Dragon dagger"
  /\ ~ Combobox.inSync Js.asciiToLowerCase r0.
Proof.
  cbn zeta. repeat split; try (vm_compute; tauto).
  vm_compute. discriminate.
Qed.

(** X6. The row height handed to the list is never NaN and never 0,
    whatever the cache holds. *)
Theorem getRowHeight_never_falsy (s : St) (ix : nat) :
  exists z, Combobox.getRowHeight s ix = Js.Num z /\ z <> 0.
Proof.
  unfold Combobox.getRowHeight, Js.or.
  destruct (Combobox.rowHeights s !! ix) as [h|]; cbn.
  - destruct (h + 15 =? 0) eqn:He; cbn.
    + exists 30. split; [reflexivity | lia].
    + exists (h + 15). split; [reflexivity | lia].
  - exists 30. split; [reflexivity | lia].
Qed.

(** The heights in the cache are heights that rows reported. *)
Lemma run_rowHeights_reported (es : list Ev) (s : St) (ix : nat) (h : Z) :
  Combobox.rowHeights (fst (run' s es)) !! ix = Some h ->
  Combobox.rowHeights s !! ix = Some h \/ In h (Combobox.reportedHeights es).
Proof.
  revert s. induction es as [|e es IH]; intros s; [cbn; auto|].
  rewrite run_cons. cbn [fst]. intros H. apply IH in H.
  rewrite step_rowHeights in H.
  destruct e as [v|l|nv|it|jx k|o]; cbn [Combobox.reportedHeights]; auto.
  destruct H as [H|H]; [|right; now right].
  destruct (decide (jx = ix)) as [->|Hne].
  - rewrite lookup_insert_eq in H. right. left. congruence.
  - rewrite lookup_insert_ne in H by exact Hne. now left.
Qed.

(** X7. When every height the rows report is a [clientHeight] (not
    negative), then in every reachable state every row takes at least 15
    units: the measurement plus 15, or the default 30. *)
Theorem reachable_row_heights_positive
        (p : Combobox.IComboboxProps V) (open : bool) (es : list Ev) (ix : nat) :
  Forall (fun h => 0 <= h) (Combobox.reportedHeights es) ->
  exists z, Combobox.getRowHeight (fst (run' (mount' p open) es)) ix = Js.Num z
            /\ 15 <= z.
Proof.
  intros Hall. rewrite List.Forall_forall in Hall.
  destruct (Combobox.rowHeights (fst (run' (mount' p open) es)) !! ix) as [h|] eqn:Hix.
  - exists (h + 15).
    assert (0 <= h) as Hh.
    { apply run_rowHeights_reported in Hix as [Hm|Hin]; [|now apply Hall].
      unfold Combobox.mount in Hm.
      destruct (commit_frame toLowerCase false false (Combobox.initialState p open)
        (Combobox.filterEffect toLowerCase (Combobox.initialState p open)
           (Combobox.valueEffect (Combobox.initialState p open)
              (Combobox.initialState p open)))) as (_ & Hrh & _).
      cbn zeta in Hrh. rewrite Hrh in Hm.
      unfold Combobox.valueEffect, Combobox.filterEffect, Combobox.initialState in Hm.
      cbn in Hm. destruct (Combobox.value p) as [v|]; cbn in Hm;
        [destruct (Js.truthyString v); cbn in Hm|]; discriminate. }
    split; [now apply getRowHeight_recorded | lia].
  - exists 30. split; [now apply getRowHeight_default | lia].
Qed.

(** X8. Measuring a row changes the height of that row only, and of two
    measurements of the same row the later one stands. *)
Theorem measurement_is_local_and_last_wins (s : St) (ix jx : nat) (h1 h2 : Z) :
  (ix <> jx ->
   Combobox.getRowHeight (fst (Combobox.setRowHeight s ix h1)) jx =
   Combobox.getRowHeight s jx)
  /\ fst (Combobox.setRowHeight (fst (Combobox.setRowHeight s ix h1)) ix h2) =
     fst (Combobox.setRowHeight s ix h2).
Proof.
  split.
  - intros Hne. unfold Combobox.getRowHeight.
    now rewrite setRowHeight_lookup_other.
  - cbn. now rewrite insert_insert_eq.
Qed.

(** X9. The viewport is never taller than 200 units and never of negative
    height, and more matches never make it smaller. *)
Theorem listHeight_bounded_and_monotone (s s' : St) :
  0 <= Combobox.listHeight s <= 200
  /\ ((length (Combobox.filteredItems s) <= length (Combobox.filteredItems s'))%nat ->
      Combobox.listHeight s <= Combobox.listHeight s').
Proof.
  unfold Combobox.listHeight. split.
  - destruct (_ <? 6) eqn:He; lia.
  - intros Hle.
    destruct (Z.of_nat (length (Combobox.filteredItems s)) <? 6) eqn:He;
      destruct (Z.of_nat (length (Combobox.filteredItems s')) <? 6) eqn:He'; lia.
Qed.

(** The input text after a step. *)
Lemma step_inputValue (s : St) (e : Ev) :
  Combobox.inputValue (fst (step' s e)) =
  match e with
  | Combobox.ValuePropChange v =>
      if bool_decide (Combobox.value (Combobox.props s) = v)
      then Combobox.inputValue s
      else match v with
           | Some x => if Js.truthyString x then x else Combobox.inputValue s
           | None => Combobox.inputValue s
           end
  | Combobox.InputValueChange nv => Js.orEmpty nv
  | _ => Combobox.inputValue s
  end.
Proof.
  destruct e as [v|l|nv|it|ix h|o]; cbn [Combobox.step fst]; try reflexivity.
  - rewrite settle_inputValue, commit_inputValue.
    now destruct (bool_decide _).
  - now rewrite settle_inputValue, commit_inputValue.
  - cbn. now rewrite settle_inputValue, commit_inputValue.
Qed.

(** The flags and the callback of the props are never changed. *)
Lemma step_callback_flag (s : St) (e : Ev) :
  Combobox.onSelectedItemChange (Combobox.props (fst (step' s e))) =
  Combobox.onSelectedItemChange (Combobox.props s).
Proof. rewrite step_props. now destruct e. Qed.

(** X10. Emptying the input (downshift reports the empty string, or no
    string at all) empties the query and brings back the whole item list,
    in a state where the filtered items are in step. *)
Theorem clearing_input_shows_all_items (s : St) (nv : option string) :
  Combobox.inSync toLowerCase s ->
  Js.orEmpty nv = "" ->
  let s' := fst (step' s (Combobox.InputValueChange nv)) in
  Combobox.inputValue s' = ""
  /\ Combobox.filteredItems s' = Combobox.items (Combobox.props s).
Proof.
  intros Hs Hnv s'.
  assert (Combobox.inputValue s' = "") as Hiv
      by (unfold s'; now rewrite step_inputValue).
  split; [exact Hiv|].
  pose proof (step_inSync toLowerCase s (Combobox.InputValueChange nv) Hs) as H.
  fold s' in H. unfold Combobox.inSync in H. rewrite H, Hiv.
  unfold s'. now rewrite step_props.
Qed.

(** X11. When the caller passes another item list, the input text and
    [value] stay as they are, and the filtered items become the new list
    filtered by the text that was already typed. *)
Theorem items_change_refilters_by_same_text (s : St)
        (l : list (Combobox.ComboboxItem V)) :
  let s' := fst (step' s (Combobox.ItemsPropChange l)) in
  Combobox.items (Combobox.props s') = l
  /\ Combobox.value (Combobox.props s') = Combobox.value (Combobox.props s)
  /\ Combobox.inputValue s' = Combobox.inputValue s
  /\ Combobox.filteredItems s' = view' l (Combobox.inputValue s).
Proof.
  cbn zeta. rewrite step_props, step_inputValue.
  repeat split.
  cbn [Combobox.step fst]. unfold Combobox.settle.
  rewrite commit_filteredItems, commit_inputValue, commit_filteredItems.
  cbn. now rewrite String.eqb_refl.
Qed.

(** X12. When the caller changes [value] to a non-empty string, the
    filtered items become the item list filtered by that string, in a state
    where the filtered items are in step. *)
Theorem value_change_refilters (s : St) (x : string) :
  Combobox.inSync toLowerCase s ->
  Combobox.value (Combobox.props s) <> Some x ->
  x <> "" ->
  Combobox.filteredItems (fst (step' s (Combobox.ValuePropChange (Some x)))) =
  view' (Combobox.items (Combobox.props s)) x.
Proof.
  intros Hs Hne Hx.
  pose proof (step_inSync toLowerCase s (Combobox.ValuePropChange (Some x)) Hs) as H.
  unfold Combobox.inSync in H. rewrite H, step_props, step_inputValue.
  rewrite bool_decide_eq_false_2 by exact Hne.
  destruct (Js.truthyString x) eqn:Ht; [reflexivity|].
  now apply truthyString_false in Ht.
Qed.

Lemma step_callbacks (s : St) (e : Ev) :
  List.filter Combobox.isCallback (snd (step' s e)) =
  match e with
  | Combobox.SelectedItemChange it =>
      if Combobox.onSelectedItemChange (Combobox.props s)
      then [Combobox.CallOnSelectedItemChange it] else []
  | _ => []
  end.
Proof.
  destruct e as [v|l|nv|it|ix h|o]; cbn [Combobox.step snd]; try reflexivity.
  - cbn. now destruct (Combobox.listMounted s).
  - unfold Combobox.onSelectedItemChangeHandler.
    now destruct (Combobox.onSelectedItemChange _),
                 (Combobox.resetAfterSelect _), (Combobox.blurAfterSelect _).
  - cbn. now destruct (Combobox.listMounted s).
Qed.

(** X13. Over any sequence of events, the caller's callback is called once
    for each selection downshift reports, with the reported items in the
    reported order, and for nothing else; without a callback in the props
    it is never called. *)
Theorem callbacks_follow_reported_selections (es : list Ev) (s : St) :
  List.filter Combobox.isCallback (snd (run' s es)) =
  if Combobox.onSelectedItemChange (Combobox.props s)
  then map Combobox.CallOnSelectedItemChange (Combobox.reportedSelections es)
  else [].
Proof.
  revert s. induction es as [|e es IH]; intros s.
  - cbn. now destruct (Combobox.onSelectedItemChange _).
  - rewrite run_cons. cbn [snd]. rewrite List.filter_app, IH, step_callbacks.
    rewrite step_callback_flag.
    destruct e as [v|l|nv|it|ix h|o]; cbn [Combobox.reportedSelections app];
      try reflexivity.
    now destruct (Combobox.onSelectedItemChange _).
Qed.

Lemma step_selection_commands (s : St) (e : Ev) :
  match e with Combobox.SelectedItemChange _ => False | _ => True end ->
  List.filter Combobox.isSelectionCommand (snd (step' s e)) = [].
Proof.
  destruct e as [v|l|nv|it|ix h|o]; intros He; try reflexivity; try easy.
  - cbn. now destruct (Combobox.listMounted s).
  - cbn. now destruct (Combobox.listMounted s).
Qed.

(** X14. As long as downshift reports no selection, the component neither
    calls the caller's callback, nor resets downshift, nor blurs the
    input, whatever else happens. *)
Theorem no_selection_no_reset_no_blur (es : list Ev) (s : St) :
  Combobox.reportedSelections es = [] ->
  List.filter Combobox.isSelectionCommand (snd (run' s es)) = [].
Proof.
  revert s. induction es as [|e es IH]; intros s Hes; [reflexivity|].
  rewrite run_cons. cbn [snd]. rewrite List.filter_app.
  destruct e as [v|l|nv|it|ix h|o]; cbn [Combobox.reportedSelections] in Hes;
    try discriminate;
    rewrite step_selection_commands by exact I; now rewrite IH.
Qed.

(** X15. A freshly mounted component has the initial [value] (or the empty
    string) as input text, the item list filtered by it as filtered items,
    and no row height recorded. *)
Theorem mount_starts_filtered (p : Combobox.IComboboxProps V) (open : bool) :
  let s := mount' p open in
  Combobox.props s = p
  /\ Combobox.inputValue s = Js.orEmpty (Combobox.value p)
  /\ Combobox.filteredItems s =
     view' (Combobox.items p) (Js.orEmpty (Combobox.value p))
  /\ Combobox.rowHeights s = ∅.
Proof.
  cbn zeta.
  assert (Combobox.inputValue (mount' p open) = Js.orEmpty (Combobox.value p)) as Hiv.
  { unfold Combobox.mount. rewrite commit_inputValue.
    unfold Combobox.valueEffect, Combobox.filterEffect, Combobox.initialState. cbn.
    destruct (Combobox.value p) as [v|]; cbn; [|reflexivity].
    now destruct (Js.truthyString v). }
  assert (Combobox.props (mount' p open) = p /\ Combobox.rowHeights (mount' p open) = ∅)
    as [Hp Hrh].
  { unfold Combobox.mount.
    destruct (commit_frame toLowerCase false false (Combobox.initialState p open)
      (Combobox.filterEffect toLowerCase (Combobox.initialState p open)
         (Combobox.valueEffect (Combobox.initialState p open)
            (Combobox.initialState p open)))) as (-> & -> & _).
    unfold Combobox.valueEffect, Combobox.filterEffect, Combobox.initialState. cbn.
    destruct (Combobox.value p) as [v|]; cbn; [|split; reflexivity].
    destruct (Js.truthyString v); split; reflexivity. }
  repeat split; try assumption.
  pose proof (mount_inSync toLowerCase p open) as H.
  unfold Combobox.inSync in H. now rewrite H, Hp, Hiv.
Qed.

(** X16. While the menu is closed or has no match, the list is not
    rendered, and no event makes the component call a method of the list. *)
Theorem no_list_call_without_list (s : St) (e : Ev) :
  Combobox.isOpen s = false \/ Combobox.filteredItems s = [] ->
  List.filter Combobox.isListCommand (snd (step' s e)) = [].
Proof.
  intros Hoff.
  assert (Combobox.listMounted s = false) as Hm.
  { unfold Combobox.listMounted. destruct Hoff as [-> | ->]; [reflexivity|].
    cbn. apply andb_false_r. }
  destruct e as [v|l|nv|it|ix h|o]; cbn [Combobox.step snd]; try reflexivity.
  - cbn. now rewrite Hm.
  - unfold Combobox.onSelectedItemChangeHandler.
    now destruct (Combobox.onSelectedItemChange _),
                 (Combobox.resetAfterSelect _), (Combobox.blurAfterSelect _).
  - cbn. now rewrite Hm.
Qed.

End ComponentFurther.


(** ** More on the equipment presets *)

Section PresetFurther.

Context {EquipmentPreset : Type} `{EqDecision EquipmentPreset}.
Variables DHAROKS MAX_MELEE MAX_RANGED VERACS VOID_MELEE VOID_RANGED
  : EquipmentPreset.
Context {EquipmentPiece : Type}.
Variable pieceId : EquipmentPiece -> Z.

Abbreviation find' := (EquipmentPresets.findItemById pieceId).
Abbreviation newPlayer' :=
  (EquipmentPresets.newPlayer DHAROKS MAX_MELEE MAX_RANGED VERACS VOID_MELEE
     VOID_RANGED pieceId).
Abbreviation onSelect' :=
  (EquipmentPresets.onSelect DHAROKS MAX_MELEE MAX_RANGED VERACS VOID_MELEE
     VOID_RANGED pieceId).
(** A piece [findItemById] found is one of the available equipment and has
    the id asked for. *)
Lemma findItemById_found (availableEquipment : list EquipmentPiece)
      (id : Z) (piece : EquipmentPiece) :
  find' availableEquipment id = EquipmentPresets.Found (Some piece) ->
  In piece availableEquipment /\ pieceId piece = id.
Proof.
  unfold EquipmentPresets.findItemById. intros [= H].
  apply List.find_some in H as [Hin Hid]. split; [exact Hin | lia].
Qed.

(** X17. [findItemById] returns the first piece of the available equipment
    that has the id, and [undefined] exactly when no piece has it. *)
Theorem findItemById_first_match
        (availableEquipment : list EquipmentPiece) (id : Z) :
  (forall piece,
      EquipmentPresets.findItemById pieceId availableEquipment id =
        EquipmentPresets.Found (Some piece) <->
      exists before after,
        availableEquipment = before ++ piece :: after
        /\ pieceId piece = id
        /\ Forall (fun q => pieceId q <> id) before)
  /\ (EquipmentPresets.findItemById pieceId availableEquipment id =
        EquipmentPresets.Found None <->
      Forall (fun q => pieceId q <> id) availableEquipment).
Proof.
  unfold EquipmentPresets.findItemById.
  induction availableEquipment as [|q l [IHs IHn]]; cbn [List.find].
  - split.
    + intros piece. split; [discriminate|].
      intros ([|b before] & after & Hl & _); discriminate.
    + split; [constructor | reflexivity].
  - destruct (pieceId q =? id) eqn:Hq.
    + apply Z.eqb_eq in Hq. split.
      * intros piece. split.
        -- intros [= ->]. exists [], l. repeat split; [exact Hq | constructor].
        -- intros ([|b before] & after & Hl & Hid & Hbefore).
           ++ cbn in Hl. congruence.
           ++ cbn in Hl. injection Hl as -> _.
              apply List.Forall_cons_iff in Hbefore as [Hb _]. contradiction.
      * split; [discriminate|].
        intros Hall. apply List.Forall_cons_iff in Hall as [Hb _]. contradiction.
    + apply Z.eqb_neq in Hq. split.
      * intros piece. rewrite IHs. split.
        -- intros (before & after & -> & Hid & Hbefore).
           exists (q :: before), after. repeat split; [exact Hid|].
           now constructor.
        -- intros ([|b before] & after & Hl & Hid & Hbefore).
           ++ cbn in Hl. injection Hl as -> _. contradiction.
           ++ cbn in Hl. injection Hl as -> ->.
              apply List.Forall_cons_iff in Hbefore as [_ Hbefore].
              exists before, after. repeat split; assumption.
      * rewrite IHn. split.
        -- intros Hall. now constructor.
        -- intros Hall. now apply List.Forall_cons_iff in Hall as [_ Hall].
Qed.

(** Every slot of an update holds what [findItemById] returned for some
    id, or [null]. *)
Lemma newPlayer_slots (availableEquipment : list EquipmentPiece)
      (v : EquipmentPresets.Selection EquipmentPreset)
      (field : string) (slots : EquipmentPresets.EquipmentUpdate)
      (key : string) (val : EquipmentPresets.SlotValue EquipmentPiece) :
  In (field, slots) (newPlayer' availableEquipment v) ->
  In (key, val) slots ->
  val = EquipmentPresets.Null \/ exists id, val = find' availableEquipment id.
Proof.
  unfold EquipmentPresets.newPlayer.
  destruct (EquipmentPresets.optionalValue v) as [x|]; [|intros []].
  intros Hf Hin.
  repeat case_decide; cbn [In] in Hf; try exact (False_ind _ Hf);
    destruct Hf as [[= <- <-] | []]; cbn [In] in Hin;
    repeat (destruct Hin as [[= <- <-] | Hin]; [eauto|]); destruct Hin.
Qed.

Lemma onSelect_calls (availableEquipment : list EquipmentPiece)
      (v : EquipmentPresets.Selection EquipmentPreset)
      (p : EquipmentPresets.PartialPlayer) :
  In p (onSelect' availableEquipment v) -> p = newPlayer' availableEquipment v.
Proof.
  unfold EquipmentPresets.onSelect.
  destruct (_ <? _)%nat; [intros [<- | []]; reflexivity | intros []].
Qed.

(** X18. [onSelect] never invents equipment: every piece it puts into a
    slot of an update is one of the store's available equipment. *)
Theorem onSelect_pieces_come_from_store
        (availableEquipment : list EquipmentPiece)
        (v : EquipmentPresets.Selection EquipmentPreset)
        (p : EquipmentPresets.PartialPlayer)
        (field : string) (slots : EquipmentPresets.EquipmentUpdate)
        (key : string) (piece : EquipmentPiece) :
  In p (onSelect' availableEquipment v) ->
  In (field, slots) p ->
  In (key, EquipmentPresets.Found (Some piece)) slots ->
  In piece availableEquipment.
Proof.
  intros Hp Hf Hk. apply onSelect_calls in Hp. subst p.
  destruct (newPlayer_slots availableEquipment v field slots key _ Hf Hk)
    as [Hnull | [id Hid]]; [discriminate|].
  symmetry in Hid. now apply findItemById_found in Hid as [Hin _].
Qed.

(** X19. With no equipment available, choosing one of the six presets
    still calls [store.updatePlayer] once, and every slot of that update is
    [undefined] or [null]. *)
Theorem onSelect_without_equipment (lbl : string) (x : EquipmentPreset) :
  EquipmentPresets.isDefinedPreset DHAROKS MAX_MELEE MAX_RANGED VERACS
    VOID_MELEE VOID_RANGED x ->
  exists slots,
    onSelect' [] (EquipmentPresets.Selected lbl x) = [[("equipment", slots)]]
    /\ Forall (fun slot => snd slot = EquipmentPresets.Found None \/
                           snd slot = EquipmentPresets.Null) slots.
Proof.
  intros Hx.
  destruct (newPlayer_preset DHAROKS MAX_MELEE MAX_RANGED VERACS VOID_MELEE
              VOID_RANGED pieceId [] (EquipmentPresets.Selected lbl x) x eq_refl Hx)
    as (slots & Hslots & Hnew).
  exists slots. split.
  - unfold EquipmentPresets.onSelect. now rewrite Hnew.
  - apply List.Forall_forall. intros [key val] Hk. cbn [snd].
    destruct (newPlayer_slots [] (EquipmentPresets.Selected lbl x)
                "equipment" slots key val) as [Hnull | [id Hid]];
      [rewrite Hnew; now left | exact Hk | now right | now left].
Qed.

(** X20. Every item the select offers updates the store: for each of the
    six entries of [presets], [onSelect] calls [store.updatePlayer] exactly
    once, with an [equipment] object that has slots. *)
Theorem every_offered_preset_updates
        (availableEquipment : list EquipmentPiece)
        (lbl : string) (x : EquipmentPreset) :
  In (lbl, x)
     (EquipmentPresets.presets DHAROKS MAX_MELEE MAX_RANGED VERACS VOID_MELEE
        VOID_RANGED) ->
  exists slots,
    slots <> [] /\
    EquipmentPresets.onSelect DHAROKS MAX_MELEE MAX_RANGED VERACS VOID_MELEE
      VOID_RANGED pieceId availableEquipment (EquipmentPresets.Selected lbl x) =
    [[("equipment", slots)]].
Proof.
  intros Hin.
  assert (EquipmentPresets.isDefinedPreset DHAROKS MAX_MELEE MAX_RANGED VERACS
            VOID_MELEE VOID_RANGED x) as Hx.
  { unfold EquipmentPresets.isDefinedPreset, EquipmentPresets.presets in *.
    cbn [In] in Hin.
    repeat (destruct Hin as [[= _ <-] | Hin]; [tauto|]). destruct Hin. }
  destruct (newPlayer_preset DHAROKS MAX_MELEE MAX_RANGED VERACS VOID_MELEE
              VOID_RANGED pieceId availableEquipment
              (EquipmentPresets.Selected lbl x) x eq_refl Hx)
    as (slots & Hslots & Hnew).
  exists slots. split; [exact Hslots|].
  unfold EquipmentPresets.onSelect. now rewrite Hnew.
Qed.

(** X21. Every update sets the same nine slots (head, cape, neck, ammo,
    body, legs, hands, feet, ring), or these nine and also weapon and
    shield; and a shield slot is always [null]. *)
Theorem onSelect_slot_keys
        (availableEquipment : list EquipmentPiece)
        (v : EquipmentPresets.Selection EquipmentPreset)
        (p : EquipmentPresets.PartialPlayer)
        (field : string) (slots : EquipmentPresets.EquipmentUpdate) :
  In p (onSelect' availableEquipment v) ->
  In (field, slots) p ->
  field = "equipment"
  /\ (EquipmentPresets.keys slots =
        ["head"; "cape"; "neck"; "ammo"; "body"; "legs"; "hands"; "feet"; "ring"]
      \/ EquipmentPresets.keys slots =
        ["head"; "cape"; "neck"; "ammo"; "weapon"; "body"; "shield"; "legs";
         "hands"; "feet"; "ring"])
  /\ (forall val, In ("shield", val) slots -> val = EquipmentPresets.Null).
Proof.
  intros Hp Hf. apply onSelect_calls in Hp. subst p. revert Hf.
  unfold EquipmentPresets.newPlayer.
  destruct (EquipmentPresets.optionalValue v) as [x|]; [|intros []].
  intros Hf.
  repeat case_decide; cbn [In] in Hf; try exact (False_ind _ Hf);
    destruct Hf as [[= <- <-] | []];
    (split; [reflexivity|]);
    (split; [first [left; reflexivity | right; reflexivity]|]);
    intros val Hin; cbn [In] in Hin;
    repeat (destruct Hin as [Hin | Hin]; [try discriminate; congruence|]);
    destruct Hin.
Qed.

End PresetFurther.

(** ** The workflow *)

Lemma workflow_eq_main_not_staging (r : string) :
  Workflow.eq r Workflow.main = true -> Workflow.eq r Workflow.staging = false.
Proof.
  unfold Workflow.eq. intros H. apply String.eqb_eq in H. rewrite H.
  reflexivity.
Qed.

(** X22. Whenever the deploy job runs, the artifact was uploaded, exactly
    one of the two build steps ran, and the directory deployed to goes with
    it: the normal build to osrs-dps/ on main, the staging build to
    osrs-dps-staging/ on staging. *)
Theorem deploy_directory_matches_build (g : Workflow.Github) :
  Workflow.deploys g = true ->
  Workflow.uploadsArtifact g = true
  /\ ((Workflow.eq (Workflow.ref g) Workflow.main = true
       /\ Workflow.buildsProject g = true
       /\ Workflow.buildsStaging g = false
       /\ Workflow.DIRECTORY_NAME g = Workflow.VStr "osrs-dps/")
      \/ (Workflow.eq (Workflow.ref g) Workflow.staging = true
          /\ Workflow.buildsProject g = false
          /\ Workflow.buildsStaging g = true
          /\ Workflow.DIRECTORY_NAME g = Workflow.VStr "osrs-dps-staging/")).
Proof.
  intros Hd. split; [exact Hd|].
  unfold Workflow.deploys in Hd. apply andb_true_iff in Hd as [_ Hd].
  unfold Workflow.buildsProject, Workflow.buildsStaging, Workflow.DIRECTORY_NAME.
  destruct (Workflow.eq (Workflow.ref g) Workflow.main) eqn:Hm.
  - left. rewrite (workflow_eq_main_not_staging _ Hm). repeat split.
  - right. cbn in Hd. rewrite Hd. repeat split.
Qed.

(** ** The further properties on concrete data *)

Lemma filter_membership_witness :
  In (Combobox.mkItem "Dragon spear" 1249)
     (Combobox.newFilteredItems Js.asciiToLowerCase Examples.weapons "SPEAR").
Proof.
  apply (proj2 (filter_membership Js.asciiToLowerCase Examples.weapons "SPEAR"
                  (Combobox.mkItem "Dragon spear" 1249))).
  split.
  - cbn. tauto.
  - right. exists "dragon ", "". reflexivity.
Defined.


Lemma reachable_row_heights_positive_witness :
  exists z,
    Combobox.getRowHeight
      (fst (Combobox.run Js.asciiToLowerCase Examples.mounted Examples.session)) 0 =
    Js.Num z /\ 15 <= z.
Proof.
  apply (reachable_row_heights_positive Js.asciiToLowerCase Examples.weaponProps
           true Examples.session 0).
  repeat constructor; lia.
Defined.

Lemma measurement_is_local_and_last_wins_witness :
  Combobox.getRowHeight (fst (Combobox.setRowHeight Examples.measured 1 20)) 0 =
  Combobox.getRowHeight Examples.measured 0.
Proof.
  apply (proj1 (measurement_is_local_and_last_wins Examples.measured 1 0 20 20)).
  lia.
Defined.

Lemma listHeight_bounded_and_monotone_witness :
  Combobox.listHeight Examples.mounted <= Combobox.listHeight Examples.mountedArmour.
Proof.
  apply (proj2 (listHeight_bounded_and_monotone Examples.mounted
                  Examples.mountedArmour)).
  vm_compute. lia.
Defined.

Lemma clearing_input_shows_all_items_witness :
  Combobox.inputValue
    (fst (Combobox.step Js.asciiToLowerCase Examples.runeMeasured
            (Combobox.InputValueChange None))) = ""
  /\ Combobox.filteredItems
       (fst (Combobox.step Js.asciiToLowerCase Examples.runeMeasured
               (Combobox.InputValueChange None))) =
     Combobox.items (Combobox.props Examples.runeMeasured).
Proof.
  apply (clearing_input_shows_all_items Js.asciiToLowerCase Examples.runeMeasured None).
  - vm_compute. reflexivity.
  - reflexivity.
Defined.

Lemma value_change_refilters_witness :
  Combobox.filteredItems
    (fst (Combobox.step Js.asciiToLowerCase Examples.mountedDragon
            (Combobox.ValuePropChange (Some "Rune")))) =
  Combobox.newFilteredItems Js.asciiToLowerCase
    (Combobox.items (Combobox.props Examples.mountedDragon)) "Rune".
Proof.
  apply (value_change_refilters Js.asciiToLowerCase Examples.mountedDragon "Rune").
  - vm_compute. reflexivity.
  - vm_compute. discriminate.
  - discriminate.
Defined.

Lemma no_selection_no_reset_no_blur_witness :
  List.filter Combobox.isSelectionCommand
    (snd (Combobox.run Js.asciiToLowerCase Examples.mounted Examples.browsing)) = [].
Proof.
  apply (no_selection_no_reset_no_blur Js.asciiToLowerCase Examples.browsing
           Examples.mounted).
  reflexivity.
Defined.

Lemma no_list_call_without_list_witness :
  List.filter Combobox.isListCommand
    (snd (Combobox.step Js.asciiToLowerCase Examples.closedMenu
            (Combobox.InputValueChange (Some "rune")))) = [].
Proof.
  apply (no_list_call_without_list Js.asciiToLowerCase Examples.closedMenu).
  left. reflexivity.
Defined.

Lemma findItemById_first_match_witness :
  EquipmentPresets.findItemById (fun piece : Z => piece) [4880; 21295; 4718] 21295 =
  EquipmentPresets.Found (Some 21295).
Proof.
  apply (proj2 (proj1 (findItemById_first_match (fun piece : Z => piece)
                         [4880; 21295; 4718] 21295) 21295)).
  exists [4880], [4718]. repeat split. repeat constructor. lia.
Defined.

Lemma onSelect_pieces_come_from_store_witness :
  In 21295 [4880; 21295; 4718].
Proof.
  apply (onSelect_pieces_come_from_store 0 1 2 3 4 5 (fun piece : Z => piece)
           [4880; 21295; 4718] (EquipmentPresets.Selected "Max Melee" 1)
           (EquipmentPresets.newPlayer 0 1 2 3 4 5 (fun piece : Z => piece)
              [4880; 21295; 4718] (EquipmentPresets.Selected "Max Melee" 1))
           "equipment"
           (match EquipmentPresets.newPlayer 0 1 2 3 4 5 (fun piece : Z => piece)
                    [4880; 21295; 4718] (EquipmentPresets.Selected "Max Melee" 1)
            with
            | (_, slots) :: _ => slots
            | [] => []
            end)
           "cape" 21295).
  - left. reflexivity.
  - left. reflexivity.
  - right. left. reflexivity.
Defined.

Lemma onSelect_without_equipment_witness :
  exists slots,
    EquipmentPresets.onSelect 0 1 2 3 4 5 (fun piece : Z => piece) []
      (EquipmentPresets.Selected "Void (Ranged)" 5) = [[("equipment", slots)]]
    /\ Forall (fun slot => snd slot = EquipmentPresets.Found None \/
                           snd slot = EquipmentPresets.Null) slots.
Proof.
  apply (onSelect_without_equipment 0 1 2 3 4 5 (fun piece : Z => piece)
           "Void (Ranged)" 5).
  unfold EquipmentPresets.isDefinedPreset. lia.
Defined.

Lemma every_offered_preset_updates_witness :
  exists slots,
    slots <> [] /\
    Examples.onSelectZ (EquipmentPresets.Selected "Verac's equipment" 3) =
    [[("equipment", slots)]].
Proof.
  apply (every_offered_preset_updates 0 1 2 3 4 5 (fun piece : Z => piece)
           [4880; 21295; 4718] "Verac's equipment" 3).
  cbn. tauto.
Defined.

Lemma onSelect_slot_keys_witness :
  let slots :=
    match Examples.onSelectZ (EquipmentPresets.Selected "Dharok's equipment" 0) with
    | [[(_, slots)]] => slots
    | _ => []
    end in
  EquipmentPresets.keys slots =
    ["head"; "cape"; "neck"; "ammo"; "body"; "legs"; "hands"; "feet"; "ring"]
  \/ EquipmentPresets.keys slots =
    ["head"; "cape"; "neck"; "ammo"; "weapon"; "body"; "shield"; "legs";
     "hands"; "feet"; "ring"].
Proof.
  cbn zeta.
  eapply (fun Hp Hf =>
            proj1 (proj2 (onSelect_slot_keys 0 1 2 3 4 5 (fun piece : Z => piece)
              [4880; 21295; 4718] (EquipmentPresets.Selected "Dharok's equipment" 0)
              (EquipmentPresets.newPlayer 0 1 2 3 4 5 (fun piece : Z => piece)
                 [4880; 21295; 4718]
                 (EquipmentPresets.Selected "Dharok's equipment" 0))
              "equipment" _ Hp Hf))).
  - left. reflexivity.
  - left. reflexivity.
Defined.

Lemma deploy_directory_matches_build_witness :
  Workflow.uploadsArtifact Examples.pushToStaging = true
  /\ ((Workflow.eq (Workflow.ref Examples.pushToStaging) Workflow.main = true
       /\ Workflow.buildsProject Examples.pushToStaging = true
       /\ Workflow.buildsStaging Examples.pushToStaging = false
       /\ Workflow.DIRECTORY_NAME Examples.pushToStaging = Workflow.VStr "osrs-dps/")
      \/ (Workflow.eq (Workflow.ref Examples.pushToStaging) Workflow.staging = true
          /\ Workflow.buildsProject Examples.pushToStaging = false
          /\ Workflow.buildsStaging Examples.pushToStaging = true
          /\ Workflow.DIRECTORY_NAME Examples.pushToStaging =
             Workflow.VStr "osrs-dps-staging/")).
Proof.
  apply (deploy_directory_matches_build Examples.pushToStaging).
  reflexivity.
Defined.
